(** * ChunkHound documentation site: the highlight panel and the site configuration

    A shallow embedding of the two code artefacts of the site:
    - the React component [LatestChanges] (a function from props to a
      tree of elements), and
    - the default export of [astro.config.mjs] (a configuration record).

    JavaScript objects used as maps (element props, [redirects], the
    [attrs] of a head tag) are finite maps from strings to strings;
    object literals with a fixed shape are records; arrays are lists.
    A call of the component is state passing over a store of element
    objects. *)

From Stdlib Require Import Ascii.
From stdpp Require Import base option list strings gmap.

Local Open Scope string_scope.
Set Warnings "-register-all".

(** ** Object literals *)

(** An object literal [{k1: v1, k2: v2, ...}] used as a map.  The
    properties are set from left to right, so of two equal keys the later
    one stays. *)
Definition object (kvs : list (string * string)) : gmap string string :=
  foldl (fun m kv => <[kv.1 := kv.2]> m) ∅ kvs.

(** ** Rendered trees (React elements) *)

(** What a JSX expression evaluates to: an element with a tag name, a props
    object and its children, or a text child.  The [className] prop is the
    one React writes out as the [class] attribute. *)
Inductive node : Type :=
| Elem (tag : string) (props : gmap string string) (children : list node)
| Text (s : string).

Definition tagName (n : node) : option string :=
  match n with
  | Elem t _ _ => Some t
  | Text _ => None
  end.

Definition getAttribute (k : string) (n : node) : option string :=
  match n with
  | Elem _ ps _ => ps !! k
  | Text _ => None
  end.

Definition childNodes (n : node) : list node :=
  match n with
  | Elem _ _ cs => cs
  | Text _ => []
  end.

(** Every node strictly below [n], in document order. *)
Fixpoint descendants (n : node) : list node :=
  match n with
  | Elem _ _ cs => flat_map (fun c => c :: descendants c) cs
  | Text _ => []
  end.

(** The text of a node: its text children, concatenated in document order. *)
Fixpoint textContent (n : node) : string :=
  match n with
  | Elem _ _ cs => String.concat "" (map textContent cs)
  | Text s => s
  end.

(** ** Class tokens *)

(** ASCII whitespace, which separates the tokens of a class attribute:
    tab, line feed, form feed, carriage return and space. *)
Definition is_ascii_whitespace (a : ascii) : bool :=
  match N_of_ascii a with
  | 9%N | 10%N | 12%N | 13%N | 32%N => true
  | _ => false
  end.

Definition flush (cur : string) : list string :=
  match cur with
  | "" => []
  | _ => [cur]
  end.

(** Split [s] on ASCII whitespace; [cur] is the token read so far. *)
Fixpoint split_on_whitespace (cur s : string) : list string :=
  match s with
  | "" => flush cur
  | String a s' =>
      if is_ascii_whitespace a
      then flush cur ++ split_on_whitespace "" s'
      else split_on_whitespace (cur +:+ String a "") s'
  end.

Definition class_tokens (s : string) : list string :=
  split_on_whitespace "" s.

Fixpoint no_whitespace (s : string) : bool :=
  match s with
  | "" => true
  | String a s' => negb (is_ascii_whitespace a) && no_whitespace s'
  end.

(** The tokens of a class attribute form an ordered set: a token counts
    once, at its first occurrence. *)
Fixpoint ordered_set (l : list string) : list string :=
  match l with
  | [] => []
  | x :: l' => x :: filter (fun y => y ≠ x) (ordered_set l')
  end.

(** The class list of an element (empty when it has no class). *)
Definition classList (n : node) : list string :=
  from_option (fun s => ordered_set (class_tokens s)) []
    (getAttribute "className" n).

Definition has_class (c : string) (n : node) : bool :=
  bool_decide (c ∈ classList n).

Definition has_tag (t : string) (n : node) : bool :=
  bool_decide (tagName n = Some t).

(** Queries relative to a node look at its descendants only, as the DOM
    methods of the same names do. *)
Definition getElementsByClassName (c : string) (n : node) : list node :=
  filter (fun e => has_class c e = true) (descendants n).

Definition getElementsByTagName (t : string) (n : node) : list node :=
  filter (fun e => has_tag t e = true) (descendants n).

(** ** The highlight panel: [LatestChanges] *)

Record LatestChangesProps : Type := {
  className : option string  (* className?: string *)
}.

(** The destructuring default [className = ""]: an absent prop reads as
    the empty string. *)
Definition className_or_default (p : LatestChangesProps) : string :=
  default "" (className p).

Definition jsx (tag : string) (props : list (string * string))
    (children : list node) : node :=
  Elem tag (object props) children.

Definition LatestChanges (p : LatestChangesProps) : node :=
  let className := className_or_default p in
  jsx "div" [("className", "latest-changes " +:+ className)] [
    jsx "div" [("className", "latest-changes-header")] [
      jsx "h2" [] [Text "Latest Updates"];
      jsx "p" [] [Text "Stay up to date with ChunkHound's latest features and improvements."]
    ];
    jsx "div" [("className", "latest-changes-grid")] [
      jsx "div" [("className", "change-card")] [
        jsx "div" [("className", "change-card-header")] [
          jsx "h3" [] [Text "Scalable Code Analysis"];
          jsx "span" [("className", "rocket-icon")] [Text "🔍"]
        ];
        jsx "div" [("className", "change-card-content")] [
          jsx "div" [("className", "change-summary")] [
            Text "Map-reduce synthesis breaks complex queries into parallel subtasks, preventing context collapse on multi-million LOC codebases."
          ];
          jsx "ul" [("className", "change-highlights")] [
            jsx "li" [("className", "highlight-item")] [
              Text "Numbered citations [1][2][3] replace verbose file.py:123 references"
            ];
            jsx "li" [("className", "highlight-item")] [
              Text "New chunkhound research CLI command for direct code analysis"
            ];
            jsx "li" [("className", "highlight-item")] [
              Text "Automatic query expansion with deduplication casts wider semantic nets"
            ]
          ]
        ]
      ];
      jsx "div" [("className", "change-card")] [
        jsx "div" [("className", "change-card-header")] [
          jsx "h3" [] [Text "Indexing Performance"];
          jsx "span" [("className", "rocket-icon")] [Text "⚡"]
        ];
        jsx "div" [("className", "change-card-content")] [
          jsx "div" [("className", "change-summary")] [
            Text "10-100x faster indexing via native git bindings, parallel directory discovery, and ProcessPoolExecutor for CPU-bound parsing."
          ];
          jsx "ul" [("className", "change-highlights")] [
            jsx "li" [("className", "highlight-item")] [
              Text "RapidYAML parser handles large k8s manifests 10-100x faster than tree-sitter"
            ];
            jsx "li" [("className", "highlight-item")] [
              Text "7 new AST-aware parsers: Swift, Objective-C, Zig, Haskell, HCL, Vue, PHP (29+ total)"
            ];
            jsx "li" [("className", "highlight-item")] [
              Text "Provider-aware embedding batching optimizes API throughput (OpenAI: 8, VoyageAI: 40)"
            ]
          ]
        ]
      ];
      jsx "div" [("className", "change-card")] [
        jsx "div" [("className", "change-card-header")] [
          jsx "h3" [] [Text "Production Tooling"];
          jsx "span" [("className", "rocket-icon")] [Text "🛠️"]
        ];
        jsx "div" [("className", "change-card-content")] [
          jsx "div" [("className", "change-summary")] [
            Text "New CLI commands and integrations for production workflows and debugging."
          ];
          jsx "ul" [("className", "change-highlights")] [
            jsx "li" [("className", "highlight-item")] [
              Text "simulate (dry-run), diagnose (compare ChunkHound vs git rules), calibrate (auto-tune batch sizes)"
            ];
            jsx "li" [("className", "highlight-item")] [
              Text "TEI reranker format support - two-stage retrieval with cross-encoder, no vendor lock-in"
            ];
            jsx "li" [("className", "highlight-item")] [
              Text "Repo-aware gitignore engine prevents rule leakage between sibling repos"
            ]
          ]
        ]
      ]
    ];
    jsx "div" [("className", "view-all-link")] [
      jsx "a" [("href", "./changelog"); ("className", "btn-secondary")] [
        Text "View Full Changelog →"
      ]
    ]
  ].

(** ** Reading the panel back from the rendered tree

    The component has no card data structure of its own: the cards are
    written out in the JSX.  A card is read back from the tree the way a
    test of the rendered markup would, through [getElementsByClassName]
    and [getElementsByTagName]. *)

Record HighlightCard : Type := {
  title : string;
  icon : string;
  summary : string;
  highlights : list string
}.

(** The only element of a list. *)
Definition the {A : Type} (l : list A) : option A :=
  match l with
  | [x] => Some x
  | _ => None
  end.

Definition card_of (e : node) : option HighlightCard :=
  h ← the (getElementsByTagName "h3" e);
  i ← the (getElementsByTagName "span" e);
  s ← the (getElementsByClassName "change-summary" e);
  ul ← the (getElementsByClassName "change-highlights" e);
  Some {| title := textContent h;
          icon := textContent i;
          summary := textContent s;
          highlights := textContent <$> getElementsByTagName "li" ul |}.

Definition card_elements (t : node) : list node :=
  getElementsByClassName "change-card" t.

Definition panel_cards (t : node) : list (option HighlightCard) :=
  card_of <$> card_elements t.

(** Title and subtitle of the header. *)
Definition panel_header (t : node) : option (string * string) :=
  hd ← the (getElementsByClassName "latest-changes-header" t);
  h2 ← the (getElementsByTagName "h2" hd);
  para ← the (getElementsByTagName "p" hd);
  Some (textContent h2, textContent para).

(** All anchor elements of a tree, the root included. *)
Definition anchors (t : node) : list node :=
  filter (fun e => has_tag "a" e = true) (t :: descendants t).

Definition nonempty_string (s : string) : bool :=
  negb (String.eqb s "").

Definition card_nonempty (c : HighlightCard) : bool :=
  nonempty_string (title c) && nonempty_string (icon c)
  && nonempty_string (summary c) && negb (bool_decide (highlights c = [])).

(** ** The site configuration: [astro.config.mjs] *)

Module Logo.
Record t : Type := {
  light : string;
  dark : string;
  replacesTitle : bool
}.
End Logo.

Module ExpressiveCode.
Record t : Type := {
  themes : list string
}.
End ExpressiveCode.

Module Social.
Record t : Type := {
  icon : string;
  label : string;
  href : string
}.
End Social.

Module HeadTag.
Record t : Type := {
  tag : string;
  attrs : gmap string string
}.
End HeadTag.

(** A sidebar entry has a label and a [slug] key or a [link] key; a key
    that the literal does not write is [None]. *)
Module SidebarItem.
Record t : Type := {
  label : string;
  slug : option string;
  link : option string
}.
End SidebarItem.

Module Starlight.
Record options : Type := {
  title : string;
  description : string;
  logo : Logo.t;
  favicon : string;
  customCss : list string;
  expressiveCode : ExpressiveCode.t;
  social : list Social.t;
  head : list HeadTag.t;
  sidebar : list SidebarItem.t
}.
End Starlight.

(** The two integrations the configuration calls, with their arguments. *)
Inductive integration : Type :=
| react
| starlight (opts : Starlight.options).

Module Astro.
Record config : Type := {
  site : string;
  base : string;
  redirects : gmap string string;
  integrations : list integration
}.
End Astro.

(** Astro's [defineConfig] returns the configuration it is given. *)
Definition defineConfig (c : Astro.config) : Astro.config := c.

(** The default export of [astro.config.mjs]. *)
Definition buildConfig : Astro.config :=
  defineConfig {|
    Astro.site := "https://chunkhound.github.io";
    Astro.base := "/";
    Astro.redirects := object [("/code-expert-agent", "/code-research")];
    Astro.integrations := [
      react;
      starlight {|
        Starlight.title := "ChunkHound";
        Starlight.description :=
          "Modern RAG for your codebase - semantic and regex search via MCP";
        Starlight.logo := {|
          Logo.light := "./public/wordmark.svg";
          Logo.dark := "./public/wordmark-dark.svg";
          Logo.replacesTitle := true
        |};
        Starlight.favicon := "/favicon.svg";
        Starlight.customCss := ["./src/styles/colors.css"; "./src/styles/changelog.css"];
        Starlight.expressiveCode := {|
          ExpressiveCode.themes := ["github-light"; "github-dark"]
        |};
        Starlight.social := [
          {| Social.icon := "github";
             Social.label := "GitHub";
             Social.href := "https://github.com/chunkhound/chunkhound" |}
        ];
        Starlight.head := [
          (* Open Graph *)
          {| HeadTag.tag := "meta";
             HeadTag.attrs := object [("property", "og:image");
               ("content", "https://chunkhound.github.io/og-image.png")] |};
          {| HeadTag.tag := "meta";
             HeadTag.attrs := object [("property", "og:image:width");
               ("content", "1200")] |};
          {| HeadTag.tag := "meta";
             HeadTag.attrs := object [("property", "og:image:height");
               ("content", "630")] |};
          {| HeadTag.tag := "meta";
             HeadTag.attrs := object [("property", "og:type");
               ("content", "website")] |};
          (* Twitter Card *)
          {| HeadTag.tag := "meta";
             HeadTag.attrs := object [("name", "twitter:card");
               ("content", "summary_large_image")] |};
          {| HeadTag.tag := "meta";
             HeadTag.attrs := object [("name", "twitter:image");
               ("content", "https://chunkhound.github.io/og-image.png")] |}
        ];
        Starlight.sidebar := [
          {| SidebarItem.label := "Quickstart"; SidebarItem.slug := Some "quickstart";
             SidebarItem.link := None |};
          {| SidebarItem.label := "How-To Guides"; SidebarItem.slug := Some "how-to";
             SidebarItem.link := None |};
          {| SidebarItem.label := "Configuration"; SidebarItem.slug := Some "configuration";
             SidebarItem.link := None |};
          {| SidebarItem.label := "Code Research"; SidebarItem.slug := Some "code-research";
             SidebarItem.link := None |};
          {| SidebarItem.label := "Benchmark"; SidebarItem.slug := Some "benchmark";
             SidebarItem.link := None |};
          {| SidebarItem.label := "Under the Hood"; SidebarItem.slug := Some "under-the-hood";
             SidebarItem.link := None |};
          {| SidebarItem.label := "Origin Story"; SidebarItem.slug := Some "origin-story";
             SidebarItem.link := None |};
          {| SidebarItem.label := "Contributing"; SidebarItem.slug := Some "contributing";
             SidebarItem.link := None |};
          {| SidebarItem.label := "Changelog"; SidebarItem.slug := None;
             SidebarItem.link := Some "/changelog" |}
        ]
      |}
    ]
  |}.

(** The options of the Starlight integration of a configuration. *)
Definition starlight_options (c : Astro.config) : option Starlight.options :=
  head (omap (fun i => match i with
                        | starlight opts => Some opts
                        | react => None
                        end) (Astro.integrations c)).

Definition navigation (c : Astro.config) : list SidebarItem.t :=
  from_option Starlight.sidebar [] (starlight_options c).

Definition headTags (c : Astro.config) : list HeadTag.t :=
  from_option Starlight.head [] (starlight_options c).

(** An entry resolves to exactly one target: a slug or a link, not both. *)
Definition one_target (e : SidebarItem.t) : bool :=
  match SidebarItem.slug e, SidebarItem.link e with
  | Some _, None | None, Some _ => true
  | _, _ => false
  end.

(** ** Calling the component

    A call of the component evaluates its JSX expression.  Each element of
    the expression compiles to a call that returns a new element object,
    and the children, being arguments, are evaluated before their parent,
    from left to right.  The world a call runs in holds the element objects
    created so far and what has been written out (console, network); a
    function component may read and change both. *)

Inductive child : Type :=
| ChildRef (r : nat)
| ChildText (s : string).

Record element_object : Type := {
  el_type : string;
  el_props : gmap string string;
  el_children : list child
}.

Record World : Type := {
  objects : list element_object;
  output : list string
}.

Definition Render (A : Type) : Type := World → A * World.

(** A new element object; its reference is its place in the store. *)
Definition create_element (t : string) (ps : gmap string string)
    (kids : list child) : Render child :=
  fun w =>
    (ChildRef (length (objects w)),
     {| objects :=
          (objects w
           ++ [{| el_type := t; el_props := ps; el_children := kids |}])%list;
        output := output w |}).

Definition create_all (create : node → Render child) :
    list node → Render (list child) :=
  fix go (cs : list node) : Render (list child) :=
    match cs with
    | [] => fun w => ([], w)
    | c :: cs' => fun w =>
        let r := create c w in
        let rs := go cs' r.2 in
        (r.1 :: rs.1, rs.2)
    end.

(** Evaluating the JSX expression of a tree. *)
Fixpoint create (n : node) : Render child :=
  match n with
  | Text s => fun w => (ChildText s, w)
  | Elem t ps cs => fun w =>
      let kids := create_all create cs w in
      create_element t ps kids.1 kids.2
  end.








(** ** Further readings of the tree and of the configuration *)

Fixpoint all_whitespace (s : string) : bool :=
  match s with
  | "" => true
  | String a s' => is_ascii_whitespace a && all_whitespace s'
  end.

(** The names of the props an element carries. *)
Definition attribute_names (n : node) : gset string :=
  match n with
  | Elem _ ps _ => dom ps
  | Text _ => ∅
  end.

(** An element whose props are at most a class, or the anchor with at most
    a class and an href. *)
Definition plain_attributes (n : node) : bool :=
  bool_decide (attribute_names n ⊆ {[ "className" ]})
  || (has_tag "a" n
      && bool_decide (attribute_names n ⊆ {[ "className"; "href" ]})).

(** The markup of a node without its text. *)
Fixpoint skeleton (n : node) : node :=
  match n with
  | Elem t ps cs => Elem t ps (map skeleton cs)
  | Text _ => Text ""
  end.

(** The elements of a whole tree, the root included, that carry a class:
    what a selector on the class matches in a document made of the tree. *)
Definition select_class (c : string) (t : node) : list node :=
  filter (fun e => has_class c e = true) (t :: descendants t).

(** The path of the page a sidebar entry names by its slug. *)
Definition page_path (e : SidebarItem.t) : option string :=
  (fun s => "/" +:+ s) <$> SidebarItem.slug e.

(** The identifying attribute of a head tag: its property, or else its
    name. *)
Definition head_key (h : HeadTag.t) : option (string * string) :=
  match HeadTag.attrs h !! "property", HeadTag.attrs h !! "name" with
  | Some v, _ => Some ("property", v)
  | None, Some v => Some ("name", v)
  | None, None => None
  end.

(** * Properties *)

(** ** Class tokens *)

Lemma append_empty_r (s : string) : s +:+ "" = s.
Proof.
  induction s as [|a s IH]; [reflexivity|].
  change (String a (s +:+ "") = String a s). by rewrite IH.
Qed.

Lemma append_snoc (s t : string) (a : ascii) :
  (s +:+ String a "") +:+ t = s +:+ String a t.
Proof.
  induction s as [|b s IH]; [reflexivity|].
  change (String b ((s +:+ String a "") +:+ t) = String b (s +:+ String a t)).
  by rewrite IH.
Qed.

(** A string without whitespace is read as one token, after what was
    already read. *)
Lemma split_no_whitespace (s cur : string) :
  no_whitespace s = true →
  split_on_whitespace cur s = flush (cur +:+ s).
Proof.
  revert cur. induction s as [|a s IH]; intros cur Hs; simpl in *.
  - by rewrite append_empty_r.
  - destruct (is_ascii_whitespace a); simpl in Hs; [discriminate|].
    rewrite IH by exact Hs. by rewrite append_snoc.
Qed.

Lemma class_tokens_single (c : string) :
  c ≠ "" → no_whitespace c = true → class_tokens c = [c].
Proof.
  intros Hc Hs. unfold class_tokens. rewrite split_no_whitespace by exact Hs.
  change ("" +:+ c) with c. by destruct c.
Qed.

(** The base class and the space after it are read before the parameter. *)
Lemma class_tokens_base (c : string) :
  class_tokens ("latest-changes " +:+ c) = "latest-changes" :: class_tokens c.
Proof. reflexivity. Qed.

Lemma root_class (p : LatestChangesProps) :
  getAttribute "className" (LatestChanges p)
  = Some ("latest-changes " +:+ className_or_default p).
Proof. reflexivity. Qed.

Lemma elem_of_ordered_set (x : string) (l : list string) :
  x ∈ ordered_set l ↔ x ∈ l.
Proof.
  induction l as [|y l IH]; simpl; [reflexivity|].
  rewrite !elem_of_cons, list_elem_of_filter, IH.
  destruct (decide (x = y)) as [->|Hxy].
  - split; intros _; by left.
  - split.
    + intros [?|[_ ?]]; [done | by right].
    + intros [?|?]; [done|]. right. by split.
Qed.

Lemma NoDup_ordered_set (l : list string) : NoDup (ordered_set l).
Proof.
  induction l as [|y l IH]; simpl; [apply NoDup_nil_2|].
  apply NoDup_cons_2.
  - rewrite list_elem_of_filter. by intros [? _].
  - by apply NoDup_filter.
Qed.

(** The class list of the root: the base class, then the tokens of the
    parameter that are new. *)
Lemma root_classList (p : LatestChangesProps) :
  classList (LatestChanges p)
  = "latest-changes"
    :: filter (λ y, y ≠ "latest-changes")
         (ordered_set (class_tokens (className_or_default p))).
Proof.
  unfold classList. rewrite root_class. cbn [from_option].
  by rewrite class_tokens_base.
Qed.

Lemma root_class_member (p : LatestChangesProps) (x : string) :
  x ∈ classList (LatestChanges p)
  ↔ x = "latest-changes" ∨ x ∈ class_tokens (className_or_default p).
Proof.
  rewrite root_classList, elem_of_cons, list_elem_of_filter,
    elem_of_ordered_set.
  destruct (decide (x = "latest-changes")) as [->|Hx].
  - split; intros _; by left.
  - split.
    + intros [?|[_ ?]]; [done | by right].
    + intros [?|?]; [done|]. right. by split.
Qed.

(** ** The highlight panel *)

(** C1. For every style-class input the rendered tree has the header with
    its fixed title and subtitle, exactly three cards in one fixed order
    (the same cards whatever the input), each with a non-empty title, icon,
    summary and highlight list, and ends with a single link element. *)
Theorem LatestChanges_structure (p : LatestChangesProps) :
  let t := LatestChanges p in
  panel_header t
  = Some ("Latest Updates",
          "Stay up to date with ChunkHound's latest features and improvements.")
  ∧ (∃ c1 c2 c3 : HighlightCard,
        panel_cards t = [Some c1; Some c2; Some c3]
        ∧ title <$> [c1; c2; c3]
          = ["Scalable Code Analysis"; "Indexing Performance"; "Production Tooling"]
        ∧ forallb card_nonempty [c1; c2; c3] = true)
  ∧ panel_cards t = panel_cards (LatestChanges {| className := None |})
  ∧ (∃ hd grid wrapper a : node,
        childNodes t = [hd; grid; wrapper]
        ∧ classList hd = ["latest-changes-header"]
        ∧ childNodes grid = card_elements t
        ∧ classList wrapper = ["view-all-link"]
        ∧ childNodes wrapper = [a]
        ∧ tagName a = Some "a"
        ∧ anchors t = [a]).
Proof.
  intros t. subst t. split; [reflexivity|]. split.
  - eexists _, _, _. split; [reflexivity|]. split; reflexivity.
  - split; [reflexivity|].
    eexists _, _, _, _. split; [reflexivity|].
    repeat split; reflexivity.
Qed.


(** *** Calls of the component *)
















(** C3. Rendered without a style parameter, the root element's class
    attribute is exactly "latest-changes " (with the trailing space) and the
    tree holds exactly three card elements, the children of its grid. *)
Theorem LatestChanges_no_argument :
  let t := LatestChanges {| className := None |} in
  getAttribute "className" t = Some "latest-changes "
  ∧ length (card_elements t) = 3
  ∧ ∃ grid : node, grid ∈ childNodes t ∧ childNodes grid = card_elements t.
Proof.
  intros t. subst t. split; [reflexivity|]. split; [reflexivity|].
  eexists. split.
  - cbn [LatestChanges jsx childNodes].
    apply list_elem_of_further, list_elem_of_here.
  - reflexivity.
Qed.

(** C4, as stated, fails at the non-empty style parameter "a b": the class
    attribute is "latest-changes a b", whose tokens are latest-changes, a
    and b, and the parameter itself is not one of them. *)
Lemma class_token_counterexample :
  let c := "a b" in
  let t := LatestChanges {| className := Some c |} in
  c ≠ ""
  ∧ getAttribute "className" t = Some "latest-changes a b"
  ∧ classList t = ["latest-changes"; "a"; "b"]
  ∧ c ∉ classList t.
Proof.
  intros c t. subst c t. split; [discriminate|].
  split; [reflexivity|]. split; [reflexivity|].
  rewrite root_class_member.
  change (class_tokens (className_or_default {| className := Some "a b" |}))
    with ["a"; "b"].
  intros [H|H]; [discriminate H|].
  repeat (apply elem_of_cons in H as [H|H]; [discriminate H|]).
  by apply elem_of_nil in H.
Qed.

(** C4, amended. The root element's class attribute is the base class, one
    space and the style parameter verbatim.  Its class list has no repeated
    token: it is the base class followed by the tokens of the parameter,
    each once and the base class not again.  A non-empty parameter without
    whitespace is a class token of the root, the one additional token unless
    it is the base class itself; with the parameter omitted the only token
    is the base class. *)
Theorem LatestChanges_class_tokens (c : string) :
  let t := LatestChanges {| className := Some c |} in
  getAttribute "className" t = Some ("latest-changes " +:+ c)
  ∧ classList t
    = "latest-changes"
      :: filter (λ y, y ≠ "latest-changes") (ordered_set (class_tokens c))
  ∧ NoDup (classList t)
  ∧ (∀ x : string,
       x ∈ classList t ↔ x = "latest-changes" ∨ x ∈ class_tokens c)
  ∧ (c ≠ "" → no_whitespace c = true →
     c ∈ classList t
     ∧ classList t
       = if decide (c = "latest-changes")
         then ["latest-changes"] else ["latest-changes"; c])
  ∧ classList (LatestChanges {| className := None |}) = ["latest-changes"].
Proof.
  intros t. subst t. split; [apply root_class|].
  split; [apply root_classList|].
  split.
  { unfold classList. rewrite root_class. apply NoDup_ordered_set. }
  split; [intros x; apply root_class_member|].
  split; [|reflexivity].
  intros Hc Hs. split.
  - apply root_class_member. right. simpl.
    rewrite class_tokens_single by done. apply list_elem_of_here.
  - rewrite root_classList. simpl. rewrite class_tokens_single by done.
    simpl. rewrite !filter_cons, filter_nil.
    destruct (decide (c = "latest-changes")) as [->|Hne].
    + reflexivity.
    + by rewrite decide_True by done.
Qed.

Lemma LatestChanges_class_tokens_witness :
  "dark" ≠ "" ∧ no_whitespace "dark" = true
  ∧ "dark" ∈ classList (LatestChanges {| className := Some "dark" |})
  ∧ classList (LatestChanges {| className := Some "dark" |})
    = ["latest-changes"; "dark"].
Proof.
  split; [discriminate|]. split; [reflexivity|].
  apply (LatestChanges_class_tokens "dark"); [discriminate | reflexivity].
Defined.

(** C8. Each of the three cards has exactly three highlights. *)
Theorem cards_three_highlights (p : LatestChangesProps) :
  let t := LatestChanges p in
  map (option_map (λ c, length (highlights c))) (panel_cards t)
  = [Some 3; Some 3; Some 3]
  ∧ map (λ e, length (getElementsByClassName "highlight-item" e)) (card_elements t)
    = [3; 3; 3].
Proof. intros t. subst t. split; reflexivity. Qed.

(** C10. For every style-class input the tree has exactly one anchor
    element: the only child of the trailing link wrapper, with href
    "./changelog". *)
Theorem view_all_link_only_anchor (p : LatestChangesProps) :
  let t := LatestChanges p in
  ∃ wrapper a : node,
    last (childNodes t) = Some wrapper
    ∧ classList wrapper = ["view-all-link"]
    ∧ childNodes wrapper = [a]
    ∧ tagName a = Some "a"
    ∧ anchors t = [a]
    ∧ getAttribute "href" a = Some "./changelog".
Proof.
  intros t. subst t. eexists _, _. split; [reflexivity|].
  repeat split; reflexivity.
Qed.

(** ** The site configuration *)

Lemma redirects_singleton :
  Astro.redirects buildConfig = {[ "/code-expert-agent" := "/code-research" ]}.
Proof.
  unfold buildConfig, defineConfig, object. simpl. apply insert_empty.
Qed.

Lemma redirects_lookup (k v : string) :
  Astro.redirects buildConfig !! k = Some v
  ↔ k = "/code-expert-agent" ∧ v = "/code-research".
Proof.
  rewrite redirects_singleton, lookup_singleton_Some.
  split; intros [<- <-]; by split.
Qed.

(** C5. The redirects of the configuration are exactly one pair: the old
    path "/code-expert-agent" is sent to "/code-research". *)
Theorem buildConfig_redirects :
  map_to_list (Astro.redirects buildConfig)
  = [("/code-expert-agent", "/code-research")]
  ∧ size (Astro.redirects buildConfig) = 1
  ∧ ∀ k v : string,
      Astro.redirects buildConfig !! k = Some v
      ↔ k = "/code-expert-agent" ∧ v = "/code-research".
Proof.
  split; [|split; [|apply redirects_lookup]]; rewrite redirects_singleton.
  - apply map_to_list_singleton.
  - apply map_size_singleton.
Qed.

(** C6. No redirect sends a path to itself, and no redirect source is the
    target of a redirect. *)
Theorem redirects_no_self_no_chain (k v : string) :
  Astro.redirects buildConfig !! k = Some v →
  k ≠ v ∧ ∀ k' : string, Astro.redirects buildConfig !! k' ≠ Some k.
Proof.
  intros [-> ->]%redirects_lookup. split; [discriminate|].
  intros k' [_ Hk]%redirects_lookup. discriminate Hk.
Qed.

Lemma redirects_no_self_no_chain_witness :
  "/code-expert-agent" ≠ "/code-research"
  ∧ ∀ k' : string,
      Astro.redirects buildConfig !! k' ≠ Some "/code-expert-agent".
Proof.
  apply (redirects_no_self_no_chain "/code-expert-agent" "/code-research").
  reflexivity.
Defined.

(** C7. The labels of the top-level sidebar entries are pairwise distinct,
    and every entry has a slug or a link but not both. *)
Theorem sidebar_labels_unique_one_target :
  ∃ opts : Starlight.options,
    starlight_options buildConfig = Some opts
    ∧ length (Starlight.sidebar opts) = 9
    ∧ NoDup (map SidebarItem.label (Starlight.sidebar opts))
    ∧ Forall (λ e, one_target e = true) (Starlight.sidebar opts).
Proof.
  eexists. split; [reflexivity|]. split; [reflexivity|]. split.
  - apply (bool_decide_unpack _). vm_compute. exact I.
  - repeat constructor.
Qed.

(** An object literal with two distinct keys has exactly those keys. *)
Lemma dom_object_pair (k1 v1 k2 v2 : string) :
  dom (object [(k1, v1); (k2, v2)]) = ({[ k1; k2 ]} : gset string).
Proof.
  unfold object. simpl. rewrite !dom_insert_L, dom_empty_L.
  rewrite (right_id_L ∅ (∪)). apply (comm_L (∪)).
Qed.

Lemma size_object_pair (k1 v1 k2 v2 : string) :
  k1 ≠ k2 → size (object [(k1, v1); (k2, v2)]) = 2.
Proof.
  intros Hk. unfold object. simpl. rewrite insert_empty.
  rewrite map_size_insert_None by (by apply lookup_singleton_ne).
  by rewrite map_size_singleton.
Qed.

Lemma lookup_object_pair_content (k1 v1 k2 v2 : string) :
  object [(k1, v1); (k2, v2)] !! k2 = Some v2.
Proof. unfold object. simpl. apply lookup_insert_eq. Qed.

(** C9. The head-tag list has six entries; each is a meta tag whose
    attributes are exactly an identifying key (property or name) and a
    content key, the content being non-empty. *)
Theorem head_tags_meta :
  ∃ opts : Starlight.options,
    starlight_options buildConfig = Some opts
    ∧ length (Starlight.head opts) = 6
    ∧ Forall (λ h,
        HeadTag.tag h = "meta"
        ∧ (dom (HeadTag.attrs h) = ({[ "property"; "content" ]} : gset string)
           ∨ dom (HeadTag.attrs h) = ({[ "name"; "content" ]} : gset string))
        ∧ size (HeadTag.attrs h) = 2
        ∧ ∃ v : string, HeadTag.attrs h !! "content" = Some v ∧ v ≠ "")
      (Starlight.head opts).
Proof.
  eexists. split; [reflexivity|]. split; [reflexivity|].
  cbn [Starlight.head].
  repeat (apply Forall_cons_2 || apply Forall_nil_2);
    cbn [HeadTag.tag HeadTag.attrs];
    rewrite dom_object_pair, size_object_pair, lookup_object_pair_content
      by discriminate;
    (split; [reflexivity|]); (split; [|split; [reflexivity|]]).
  all: try (eexists; split; [reflexivity | discriminate]).
  all: match goal with
       | |- ?x = ?x ∨ _ => left; reflexivity
       | |- _ ∨ ?x = ?x => right; reflexivity
       end.
Qed.

(** ** More on the highlight panel *)

Lemma split_all_whitespace (s cur : string) :
  all_whitespace s = true → split_on_whitespace cur s = flush cur.
Proof.
  revert cur. induction s as [|a s IH]; intros cur Hs; simpl in *;
    [reflexivity|].
  destruct (is_ascii_whitespace a); simpl in Hs; [|discriminate].
  rewrite IH by exact Hs. apply app_nil_r.
Qed.

(** X1. Two style parameters that read differently give different trees:
    the rendered tree determines the parameter it was rendered with. *)
Theorem LatestChanges_distinguishes (p q : LatestChangesProps) :
  className_or_default p ≠ className_or_default q →
  LatestChanges p ≠ LatestChanges q.
Proof.
  intros Hne Heq. apply Hne.
  pose proof (root_class p) as Hp. rewrite Heq, root_class in Hp.
  injection Hp as Hp. symmetry. exact (String.app_inj _ _ _ Hp).
Qed.

Lemma LatestChanges_distinguishes_witness :
  LatestChanges {| className := Some "dark" |}
  ≠ LatestChanges {| className := None |}.
Proof.
  apply (LatestChanges_distinguishes
           {| className := Some "dark" |} {| className := None |}).
  discriminate.
Defined.

(** X2. The style parameter reaches the root's class and nothing else: for
    every input the root is a div whose only prop is className, and the
    nodes below the root and the text of the panel are those of any other
    input. *)
Theorem style_parameter_confined (p q : LatestChangesProps) :
  tagName (LatestChanges p) = Some "div"
  ∧ attribute_names (LatestChanges p) = {[ "className" ]}
  ∧ descendants (LatestChanges p) = descendants (LatestChanges q)
  ∧ textContent (LatestChanges p) = textContent (LatestChanges q).
Proof.
  split; [reflexivity|]. split; [|split; reflexivity].
  unfold LatestChanges, jsx, object. simpl.
  rewrite dom_insert_L, dom_empty_L. apply (right_id_L ∅ (∪)).
Qed.

(** X3. A style parameter made of whitespace only adds no class: the class
    tokens of the root are those of the panel rendered without a
    parameter. *)
Theorem whitespace_parameter_adds_no_class (c : string) :
  all_whitespace c = true →
  classList (LatestChanges {| className := Some c |}) = ["latest-changes"]
  ∧ classList (LatestChanges {| className := Some c |})
    = classList (LatestChanges {| className := None |}).
Proof.
  intros Hc. rewrite !root_classList. simpl. unfold class_tokens.
  rewrite split_all_whitespace by exact Hc. by split.
Qed.

Lemma whitespace_parameter_adds_no_class_witness :
  classList (LatestChanges {| className := Some "  " |}) = ["latest-changes"]
  ∧ classList (LatestChanges {| className := Some "  " |})
    = classList (LatestChanges {| className := None |}).
Proof. apply (whitespace_parameter_adds_no_class "  "). reflexivity. Defined.

(** X4. A selector on the card class matches, in order, the root exactly
    when the style parameter has the card class among its tokens, and then
    the three cards, which are the children of the grid. *)
Theorem card_class_on_root (p : LatestChangesProps) :
  let t := LatestChanges p in
  ∃ hd grid wrapper : node,
    childNodes t = [hd; grid; wrapper]
    ∧ classList grid = ["latest-changes-grid"]
    ∧ map (λ e, option_map title (card_of e)) (childNodes grid)
      = [Some "Scalable Code Analysis"; Some "Indexing Performance";
         Some "Production Tooling"]
    ∧ select_class "change-card" t
      = ((if bool_decide
               ("change-card" ∈ class_tokens (className_or_default p))
          then [t] else [])
         ++ childNodes grid)%list.
Proof.
  intros t. subst t.
  assert (Hroot : has_class "change-card" (LatestChanges p)
                  = bool_decide
                      ("change-card" ∈ class_tokens (className_or_default p))).
  { unfold has_class. apply bool_decide_ext. rewrite root_class_member.
    split; [intros [H|H]; [discriminate H | exact H]|].
    intros H. by right. }
  eexists _, _, _. split; [reflexivity|]. split; [reflexivity|].
  split; [reflexivity|].
  unfold select_class. rewrite filter_cons.
  destruct (decide (has_class "change-card" (LatestChanges p) = true))
    as [H|H]; rewrite Hroot in H; destruct (bool_decide _);
    try congruence; reflexivity.
Qed.

Lemma plain_attributes_sound (n : node) (k : string) :
  plain_attributes n = true →
  is_Some (getAttribute k n) →
  k = "className" ∨ (k = "href" ∧ tagName n = Some "a").
Proof.
  intros Hn Hk. destruct n as [t ps cs|s]; [|by destruct Hk].
  simpl in Hk. apply elem_of_dom in Hk.
  unfold plain_attributes in Hn. apply orb_true_iff in Hn as [Hn|Hn].
  - apply bool_decide_eq_true in Hn. apply Hn in Hk.
    left. by apply elem_of_singleton in Hk.
  - apply andb_true_iff in Hn as [Ha Hn].
    apply bool_decide_eq_true in Ha, Hn. apply Hn in Hk.
    apply elem_of_union in Hk as [Hk|Hk]; apply elem_of_singleton in Hk.
    + by left.
    + right. by split.
Qed.

(** X5. Whatever the style parameter, no node of the rendered tree carries a
    prop other than className, except the anchor, which also has its href:
    no other attribute, inline style or handler is rendered. *)
Theorem only_class_and_href (p : LatestChangesProps) (n : node) (k : string) :
  n ∈ LatestChanges p :: descendants (LatestChanges p) →
  is_Some (getAttribute k n) →
  k = "className" ∨ (k = "href" ∧ tagName n = Some "a").
Proof.
  intros Hn. apply plain_attributes_sound.
  apply elem_of_cons in Hn as [->|Hn]; [reflexivity|].
  assert (Hall : forallb plain_attributes (descendants (LatestChanges p)) = true)
    by reflexivity.
  rewrite forallb_forall in Hall. apply Hall. by apply list_elem_of_In.
Qed.

Lemma only_class_and_href_witness :
  "className" = "className"
  ∨ ("className" = "href"
     ∧ tagName (LatestChanges {| className := None |}) = Some "a").
Proof.
  apply (only_class_and_href {| className := None |}
           (LatestChanges {| className := None |}) "className").
  - apply list_elem_of_here.
  - eexists. reflexivity.
Defined.

(** X6. The three cards are one template filled three times: without their
    text they are the same markup, whatever the style parameter. *)
Theorem cards_same_markup (p : LatestChangesProps) :
  ∃ s : node, map skeleton (card_elements (LatestChanges p)) = [s; s; s].
Proof. eexists. reflexivity. Qed.

(** ** More on the site configuration *)

(** X7. Every redirect leads to a page of the sidebar, and no redirect
    source is itself a sidebar page or link: a redirect neither dangles nor
    hides a page that is listed. *)
Theorem redirects_lead_to_pages (k v : string) :
  Astro.redirects buildConfig !! k = Some v →
  (∃ e : SidebarItem.t, e ∈ navigation buildConfig ∧ page_path e = Some v)
  ∧ Forall (λ e, page_path e ≠ Some k ∧ SidebarItem.link e ≠ Some k)
      (navigation buildConfig).
Proof.
  intros [-> ->]%redirects_lookup. split.
  - eexists. split.
    + apply (list_elem_of_lookup_2 _ 3). reflexivity.
    + reflexivity.
  - let l := eval vm_compute in (navigation buildConfig) in
    change (navigation buildConfig) with l.
    repeat (apply Forall_cons_2 || apply Forall_nil_2);
      (split; intros H; vm_compute in H; discriminate H).
Qed.

Lemma redirects_lead_to_pages_witness :
  (∃ e : SidebarItem.t,
      e ∈ navigation buildConfig ∧ page_path e = Some "/code-research")
  ∧ Forall (λ e, page_path e ≠ Some "/code-expert-agent"
                 ∧ SidebarItem.link e ≠ Some "/code-expert-agent")
      (navigation buildConfig).
Proof.
  apply (redirects_lead_to_pages "/code-expert-agent" "/code-research").
  reflexivity.
Defined.

(** X8. No two sidebar entries lead to the same place: their slugs and
    links are pairwise distinct. *)
Theorem sidebar_targets_distinct :
  length (navigation buildConfig) = 9
  ∧ NoDup (map (λ e, (SidebarItem.slug e, SidebarItem.link e))
             (navigation buildConfig)).
Proof.
  split; [reflexivity|]. apply (bool_decide_unpack _). vm_compute. exact I.
Qed.

(** X9. No two head tags have the same identifying attribute; the list
    has an Open Graph image tag and a Twitter image tag, and both carry one
    URL, the image og-image.png under the configured site. *)
Theorem head_tags_distinct_image_under_site :
  length (headTags buildConfig) = 6
  ∧ (∃ og tw : HeadTag.t,
        og ∈ headTags buildConfig
        ∧ tw ∈ headTags buildConfig
        ∧ head_key og = Some ("property", "og:image")
        ∧ head_key tw = Some ("name", "twitter:image")
        ∧ HeadTag.attrs og !! "content"
          = Some (Astro.site buildConfig +:+ "/og-image.png")
        ∧ HeadTag.attrs tw !! "content" = HeadTag.attrs og !! "content")
  ∧ NoDup (map head_key (headTags buildConfig))
  ∧ Forall (λ h, is_Some (head_key h)) (headTags buildConfig)
  ∧ Forall (λ h,
      head_key h = Some ("property", "og:image")
      ∨ head_key h = Some ("name", "twitter:image") →
      HeadTag.attrs h !! "content"
      = Some (Astro.site buildConfig +:+ "/og-image.png"))
      (headTags buildConfig).
Proof.
  split; [reflexivity|]. split.
  { eexists _, _.
    split; [apply (list_elem_of_lookup_2 _ 0); reflexivity|].
    split; [apply (list_elem_of_lookup_2 _ 5); reflexivity|].
    repeat split; reflexivity. }
  split.
  { apply (bool_decide_unpack _). vm_compute. exact I. }
  let l := eval cbv [headTags buildConfig defineConfig starlight_options
                     Astro.integrations omap list_omap head from_option
                     Starlight.head] in (headTags buildConfig) in
  change (headTags buildConfig) with l.
  split; repeat (apply Forall_cons_2 || apply Forall_nil_2).
  all: try (eexists; reflexivity).
  all: first [ reflexivity
             | intros [H|H]; vm_compute in H; discriminate H
             | intros _; reflexivity ].
Qed.
